(** * The workflow nodes of the AI companion graph

    A shallow embedding of [src/ai_companion/graph/nodes.py].  Every node of
    the graph is a Python function from the conversation state to a partial
    state update (a dict with only the keys the node sets).  The nodes talk
    to collaborators that live outside the file (the router chain, the
    character chain, the chat model, the memory manager, the schedule, the
    image and speech modules); here a node is a program over a signature of
    collaborator calls, and running it against a handler yields its result
    together with the list of calls it made, in order. *)

From Stdlib Require Import List String Ascii ZArith Lia Bool.
From Stdlib Require Import Strings.Byte.
Import ListNotations.
Open Scope string_scope.
Open Scope Z_scope.

(** ** Python sequence operations *)

Module Py.

Section Slices.
Context {A : Type}.

(** A slice bound [i] of a sequence of length [len]: a negative bound
    counts from the end, and the result is clamped to [0 .. len]. *)
Definition bound (len i : Z) : Z :=
  let j := if i <? 0 then i + len else i in
  if j <? 0 then 0 else if len <? j then len else j.

(** [l[start:]] *)
Definition slice_from (l : list A) (start : Z) : list A :=
  skipn (Z.to_nat (bound (Z.of_nat (List.length l)) start)) l.

(** [l[:stop]] *)
Definition slice_to (l : list A) (stop : Z) : list A :=
  firstn (Z.to_nat (bound (Z.of_nat (List.length l)) stop)) l.

(** [l[i]]; [None] stands for [IndexError]. *)
Definition index (l : list A) (i : Z) : option A :=
  let len := Z.of_nat (List.length l) in
  let j := if i <? 0 then i + len else i in
  if (0 <=? j) && (j <? len) then nth_error l (Z.to_nat j) else None.
End Slices.

(** [d.get(key, default)] on an optional key of a typed dict. *)
Definition get {A : Type} (field : option A) (default : A) : A :=
  match field with
  | Some v => v
  | None => default
  end.

(** Truth value of a [str]: only the empty string is false. *)
Definition truthy (s : string) : bool :=
  match s with
  | EmptyString => false
  | String _ _ => true
  end.

(** [a != b] on two [str]. *)
Definition ne (a b : string) : bool := negb (String.eqb a b).

(** The one-character string "\n". *)
Definition newline : string := String (ascii_of_nat 10) EmptyString.

(** [sep.join(parts)] *)
Definition join (sep : string) (parts : list string) : string :=
  String.concat sep parts.

End Py.

(** ** Messages and the conversation state *)

(** The three message classes the file imports from [langchain_core].  A
    message built in the file without an [id] argument has [id = None]. *)
Inductive message : Type :=
| HumanMessage (content : string) (id : option string)
| AIMessage (content : string) (id : option string)
| RemoveMessage (id : option string).

Definition content (m : message) : string :=
  match m with
  | HumanMessage c _ | AIMessage c _ => c
  | RemoveMessage _ => ""
  end.

Definition id (m : message) : option string :=
  match m with
  | HumanMessage _ i | AIMessage _ i | RemoveMessage i => i
  end.

Definition is_remove (m : message) : bool :=
  match m with
  | RemoveMessage _ => true
  | _ => false
  end.

Definition is_human (m : message) : bool :=
  match m with
  | HumanMessage _ _ => true
  | _ => false
  end.

Definition bytes := list byte.

(** [AICompanionState]: [messages] is always present, the other keys are
    read with [state.get] and may be absent. *)
Record AICompanionState : Type := mkState {
  messages : list message;
  summary : option string;
  workflow : option string;
  current_activity : option string;
  apply_activity : option bool;
  memory_context : option string;
  image_path : option string;
  audio_buffer : option bytes
}.

(** What a node stores under the key ["messages"] of the dict it returns:
    one message object, a bare [str] (the audio node), or a list of
    messages (the summarization node). *)
Inductive messages_value : Type :=
| OneMessage (m : message)
| RawText (s : string)
| MessageList (l : list message).

(** The dict a node returns: a key that is absent from the dict is [None]. *)
Record StateUpdate : Type := mkUpdate {
  u_messages : option messages_value;
  u_summary : option string;
  u_workflow : option string;
  u_current_activity : option string;
  u_apply_activity : option bool;
  u_memory_context : option string;
  u_image_path : option string;
  u_audio_buffer : option bytes
}.

(** [{}] *)
Definition empty_update : StateUpdate :=
  mkUpdate None None None None None None None None.

(** ** Collaborators *)

(** The objects the collaborators hand back; only the attributes the nodes
    read are kept. *)
Record RouterResponse : Type := { response_type : string }.
Record ScenarioPrompt : Type := { image_prompt : string }.
Record ModelResponse : Type := { response_content : string }.

(** A stored memory, as the memory manager returns it. *)
Definition Memory := string.

(** The [RunnableConfig] dict; the nodes only pass it on. *)
Definition RunnableConfig := list (string * string).

(** One constructor per call a node makes outside the file, indexed by the
    type of the answer:
    - [RouterInvoke]: [get_router_chain().ainvoke({"messages": msgs})];
    - [GetCurrentActivity]: [ScheduleContextGenerator.get_current_activity()];
    - [ChainInvoke]: [get_character_response_chain(summary_text)] invoked on
      the dict of [msgs], [activity] and [memory], with [config];
    - [CreateScenario], [GenerateImage]: the text-to-image module;
    - [Makedirs]: [os.makedirs(path, exist_ok=True)];
    - [Uuid4]: [str(uuid4())];
    - [Synthesize]: the text-to-speech module;
    - [ModelInvoke]: [get_chat_model().ainvoke(msgs)];
    - the last three: the memory manager. *)
Inductive ext : Type -> Type :=
| RouterInvoke (msgs : list message) : ext RouterResponse
| GetCurrentActivity : ext string
| ChainInvoke (summary_text : string) (msgs : list message)
    (activity memory : string) (config : RunnableConfig) : ext string
| CreateScenario (msgs : list message) : ext ScenarioPrompt
| Makedirs (path : string) : ext unit
| Uuid4 : ext string
| GenerateImage (prompt path : string) : ext bytes
| Synthesize (text : string) : ext bytes
| ModelInvoke (msgs : list message) : ext ModelResponse
| ExtractAndStoreMemories (m : message) : ext unit
| GetRelevantMemories (query : string) : ext (list Memory)
| FormatMemoriesForPrompt (memories : list Memory) : ext string.

(** ** Programs over the collaborators *)

Inductive error : Type :=
| IndexError
| ExternalFailure.

Inductive outcome (A : Type) : Type :=
| Ok (a : A)
| Err (e : error).
Arguments Ok {A} a.
Arguments Err {A} e.

Inductive prog (A : Type) : Type :=
| Ret (a : A)
| Raise (e : error)
| Call {X : Type} (c : ext X) (k : X -> prog A).
Arguments Ret {A} a.
Arguments Raise {A} e.
Arguments Call {A X} c k.

Fixpoint bind {A B : Type} (p : prog A) (f : A -> prog B) : prog B :=
  match p with
  | Ret a => f a
  | Raise e => Raise e
  | Call c k => Call c (fun x => bind (k x) f)
  end.

Definition call {X : Type} (c : ext X) : prog X := Call c Ret.

Definition lift {A : Type} (o : option A) (e : error) : prog A :=
  match o with
  | Some a => Ret a
  | None => Raise e
  end.

Notation "x <- p ;; q" := (bind p (fun x => q))
  (at level 61, p at next level, right associativity).
Notation "p ;;; q" := (bind p (fun _ => q))
  (at level 61, right associativity).

(** A call that was made, whatever its answer. *)
Inductive event : Type :=
| Called {X : Type} (c : ext X).

(** The world outside the file answers a call and moves on; [None] is a
    collaborator that raises. *)
Definition handler (W : Type) : Type :=
  forall X : Type, ext X -> W -> option X * W.

Fixpoint run {W A : Type} (h : handler W) (p : prog A) (w : W)
  : outcome A * W * list event :=
  match p with
  | Ret a => (Ok a, w, [])
  | Raise e => (Err e, w, [])
  | Call c k =>
      match h _ c w with
      | (Some x, w') =>
          let '(r, w'', tr) := run h (k x) w' in (r, w'', Called c :: tr)
      | (None, w') => (Err ExternalFailure, w', [Called c])
      end
  end.

(** ** The nodes *)

Section Nodes.

(** [settings.ROUTER_MESSAGES_TO_ANALYZE] and
    [settings.TOTAL_MESSAGES_AFTER_SUMMARY]: Python integers read from
    the settings module. *)
Variable ROUTER_MESSAGES_TO_ANALYZE : Z.
Variable TOTAL_MESSAGES_AFTER_SUMMARY : Z.

Definition router_node (state : AICompanionState) : prog StateUpdate :=
  response <- call (RouterInvoke
                (Py.slice_from (messages state) (- ROUTER_MESSAGES_TO_ANALYZE))) ;;
  Ret (mkUpdate None None (Some (response_type response))
                None None None None None).

Definition context_injection_node (state : AICompanionState) : prog StateUpdate :=
  schedule_context <- call GetCurrentActivity ;;
  let apply_activity :=
    if Py.ne schedule_context (Py.get (current_activity state) "")
    then true else false in
  Ret (mkUpdate None None None (Some schedule_context) (Some apply_activity)
                None None None).

Definition conversation_node (state : AICompanionState) (config : RunnableConfig)
  : prog StateUpdate :=
  current_activity <- call GetCurrentActivity ;;
  let memory_context := Py.get (memory_context state) "" in
  response <- call (ChainInvoke (Py.get (summary state) "") (messages state)
                      current_activity memory_context config) ;;
  Ret (mkUpdate (Some (OneMessage (AIMessage response None)))
                None None None None None None None).

Definition image_node (state : AICompanionState) (config : RunnableConfig)
  : prog StateUpdate :=
  current_activity <- call GetCurrentActivity ;;
  let memory_context := Py.get (memory_context state) "" in
  scenario <- call (CreateScenario (Py.slice_from (messages state) (-5))) ;;
  call (Makedirs "generated_images") ;;;
  uuid <- call Uuid4 ;;
  let img_path := "generated_images/image_" ++ uuid ++ ".png" in
  call (GenerateImage (image_prompt scenario) img_path) ;;;
  let scenario_message :=
    HumanMessage ("<image attached by Ava generated from prompt: "
                  ++ image_prompt scenario ++ ">") None in
  let updated_messages := (messages state ++ [scenario_message])%list in
  response <- call (ChainInvoke (Py.get (summary state) "") updated_messages
                      current_activity memory_context config) ;;
  Ret (mkUpdate (Some (OneMessage (AIMessage response None)))
                None None None None None (Some img_path) None).

Definition audio_node (state : AICompanionState) (config : RunnableConfig)
  : prog StateUpdate :=
  current_activity <- call GetCurrentActivity ;;
  let memory_context := Py.get (memory_context state) "" in
  response <- call (ChainInvoke (Py.get (summary state) "") (messages state)
                      current_activity memory_context config) ;;
  output_audio <- call (Synthesize response) ;;
  Ret (mkUpdate (Some (RawText response))
                None None None None None None (Some output_audio)).

Definition extend_prompt (summary : string) : string :=
  "This is summary of the conversation to date between Ava and the user: "
  ++ summary ++ Py.newline ++ Py.newline
  ++ "Extend the summary by taking into account the new messages above:".

Definition create_prompt : string :=
  "Create a summary of the conversation above between Ava and the user. "
  ++ "The summary must be a short description of the conversation so far, "
  ++ "but that captures all the relevant information shared between Ava and the user:".

Definition summary_message (state : AICompanionState) : string :=
  let summary := Py.get (summary state) "" in
  if Py.truthy summary then extend_prompt summary else create_prompt.

Definition delete_messages (state : AICompanionState) : list message :=
  map (fun m => RemoveMessage (id m))
      (Py.slice_to (messages state) (- TOTAL_MESSAGES_AFTER_SUMMARY)).

Definition summarize_conversation_node (state : AICompanionState)
  : prog StateUpdate :=
  let messages := (messages state ++ [HumanMessage (summary_message state) None])%list in
  response <- call (ModelInvoke messages) ;;
  Ret (mkUpdate (Some (MessageList (delete_messages state)))
                (Some (response_content response))
                None None None None None None).

Definition memory_extraction_node (state : AICompanionState) : prog StateUpdate :=
  match messages state with
  | [] => Ret empty_update
  | _ =>
      last_message <- lift (Py.index (messages state) (-1)) IndexError ;;
      call (ExtractAndStoreMemories last_message) ;;;
      Ret empty_update
  end.

Definition memory_injection_node (state : AICompanionState) : prog StateUpdate :=
  let recent_context :=
    Py.join " " (map content (Py.slice_from (messages state) (-3))) in
  memories <- call (GetRelevantMemories recent_context) ;;
  memory_context <- call (FormatMemoriesForPrompt memories) ;;
  Ret (mkUpdate None None None None None (Some memory_context) None None).

End Nodes.

(** ** The engine's merge of an update into the state *)

Section Engine.

(** How the engine stores a bare [str] found under ["messages"]; the
    choice belongs to the engine and nothing below depends on it. *)
Variable raw_message : string -> message.

Definition id_eqb (i j : option string) : bool :=
  match i, j with
  | Some a, Some b => String.eqb a b
  | None, None => true
  | _, _ => false
  end.

(** Is the identity of [m] named by one of the removal markers? *)
Definition marked (markers : list message) (m : message) : bool :=
  existsb (fun r => id_eqb (id r) (id m)) markers.

(** Modelled from the spec: the Workflow Engine's merge rule for the
    message sequence, which is not in [nodes.py].  New messages are
    appended; a removal marker deletes the messages of that identity
    and is a no-op when no message has it (spec 4.6, 7(d), 9). *)
Definition add_messages (old new : list message) : list message :=
  (filter (fun m => negb (marked (filter is_remove new) m)) old
   ++ filter (fun m => negb (is_remove m)) new)%list.

Definition as_list (v : messages_value) : list message :=
  match v with
  | OneMessage m => [m]
  | RawText s => [raw_message s]
  | MessageList l => l
  end.

(** Modelled from the spec: a scalar key of the update replaces the
    state's value, an absent key leaves it alone (spec 9). *)
Definition replace {A : Type} (old new : option A) : option A :=
  match new with
  | Some v => Some v
  | None => old
  end.

(** Modelled from the spec: the Workflow Engine applying a node's partial
    update to the conversation state (spec 9: every node returns a sparse
    patch and the engine applies it with the two rules above). *)
Definition apply_update (st : AICompanionState) (u : StateUpdate)
  : AICompanionState :=
  mkState
    (match u_messages u with
     | Some v => add_messages (messages st) (as_list v)
     | None => messages st
     end)
    (replace (summary st) (u_summary u))
    (replace (workflow st) (u_workflow u))
    (replace (current_activity st) (u_current_activity u))
    (replace (apply_activity st) (u_apply_activity u))
    (replace (memory_context st) (u_memory_context u))
    (replace (image_path st) (u_image_path u))
    (replace (audio_buffer st) (u_audio_buffer u)).

End Engine.

(** ** Scripted collaborators *)

(** Canned answers, enough to run every node on a concrete input. *)
Record script : Type := mkScript {
  s_label : string;
  s_activity : string;
  s_reply : string;
  s_prompt : string;
  s_uuid : string;
  s_audio : bytes;
  s_summary : string;
  s_memories : list Memory;
  s_formatted : string
}.

(** A world that answers from the script and counts the calls it served. *)
Definition scripted (s : script) : handler nat :=
  fun X c n =>
    (match c in ext X return option X with
     | RouterInvoke _ => Some {| response_type := s_label s |}
     | GetCurrentActivity => Some (s_activity s)
     | ChainInvoke _ _ _ _ _ => Some (s_reply s)
     | CreateScenario _ => Some {| image_prompt := s_prompt s |}
     | Makedirs _ => Some tt
     | Uuid4 => Some (s_uuid s)
     | GenerateImage _ _ => Some []
     | Synthesize _ => Some (s_audio s)
     | ModelInvoke _ => Some {| response_content := s_summary s |}
     | ExtractAndStoreMemories _ => Some tt
     | GetRelevantMemories _ => Some (s_memories s)
     | FormatMemoriesForPrompt _ => Some (s_formatted s)
     end, S n).

Definition user (text ident : string) : message := HumanMessage text (Some ident).
Definition agent (text ident : string) : message := AIMessage text (Some ident).

(** The state of a thread before its first turn. *)
Definition initial_state : AICompanionState :=
  mkState [] None None None None None None None.

(** A thread after two exchanges and a third request. *)
Definition kyoto_state : AICompanionState :=
  mkState
    [user "Hi, I'm Alex and I love jazz." "m1";
     agent "Nice to meet you, Alex!" "m2";
     user "Where are you today?" "m3";
     agent "Walking around Gion." "m4";
     user "Show me!" "m5"]
    (Some "Alex likes jazz.") (Some "conversation") (Some "at the office")
    (Some false) (Some "- Alex loves jazz") None None.

Definition kyoto_script : script :=
  mkScript "image" "visiting a temple" "Here is the view!"
           "a sunset over Kyoto" "0001" [x2a; x2b]%byte
           "Alex likes jazz and asked for a picture." ["Alex loves jazz"]
           "- Alex loves jazz".

(** A classifier that answers a label the graph has no generator for. *)
Definition video_script : script :=
  mkScript "video" "" "" "" "" [] "" [] "".

(** An engine that stores a bare [str] as a user message. *)
Definition as_human (s : string) : message := HumanMessage s None.

(** Which collaborator a call goes to, for worlds in which one is down. *)
Definition is_chain {X : Type} (c : ext X) : bool :=
  match c with ChainInvoke _ _ _ _ _ => true | _ => false end.

Definition is_speech {X : Type} (c : ext X) : bool :=
  match c with Synthesize _ => true | _ => false end.

Definition is_image_generation {X : Type} (c : ext X) : bool :=
  match c with GenerateImage _ _ => true | _ => false end.

Definition is_store {X : Type} (c : ext X) : bool :=
  match c with ExtractAndStoreMemories _ => true | _ => false end.

(** A world that answers from the script, except that the collaborators
    picked out by [down] raise. *)
Definition scripted_but (down : forall X : Type, ext X -> bool) (s : script)
  : handler nat :=
  fun X c n => if down X c then (None, S n) else scripted s X c n.

(** The response types the graph has a generator for. *)
Definition workflows : list string := ["conversation"; "image"; "audio"].

(** ** Running a program: general facts *)

Lemma run_bind_call {W A X : Type} (h : handler W) (c : ext X)
      (k : X -> prog A) (w w' : W) (x : X) :
  h X c w = (Some x, w') ->
  run h (x <- call c ;; k x) w =
  (let '(r, w'', tr) := run h (k x) w' in (r, w'', Called c :: tr)).
Proof.
  intros Hc. cbn [bind call run]. rewrite Hc. reflexivity.
Qed.

Lemma run_bind_call_fails {W A X : Type} (h : handler W) (c : ext X)
      (k : X -> prog A) (w w' : W) :
  h X c w = (None, w') ->
  run h (x <- call c ;; k x) w = (Err ExternalFailure, w', [Called c]).
Proof.
  intros Hc. cbn [bind call run]. rewrite Hc. reflexivity.
Qed.

Ltac step H := rewrite (run_bind_call _ _ _ _ _ _ H).

(** Case analysis on the answer to the call a running program is at. *)
Ltac answer :=
  cbn [bind call run];
  match goal with
  | |- context [?h ?X ?c ?w] =>
      match type of h with
      | handler _ => destruct (h X c w) as [[?|] ?]
      end
  end.

(** ** Python slices *)

(** The cases of a slice bound: negative or not, then the clamping. *)
Ltac bound_cases :=
  unfold Py.bound; cbv zeta;
  match goal with
  | |- context [if ?i <? 0 then ?i + _ else ?i] => destruct (Z.ltb_spec i 0)
  end;
  repeat match goal with
         | |- context [?a <? ?b] => destruct (Z.ltb_spec a b)
         end.

Example slice_last_two : Py.slice_from [1; 2; 3] (-2) = [2; 3].
Proof. reflexivity. Qed.

Example slice_last_more_than_all : Py.slice_from [1; 2; 3] (-5) = [1; 2; 3].
Proof. reflexivity. Qed.

Example slice_from_minus_zero : Py.slice_from [1; 2; 3] (- 0) = [1; 2; 3].
Proof. reflexivity. Qed.

Example slice_all_but_last_two : Py.slice_to [1; 2; 3] (-2) = [1].
Proof. reflexivity. Qed.

Example slice_to_minus_zero : Py.slice_to [1; 2; 3] (- 0) = [].
Proof. reflexivity. Qed.

Example slice_all_but_more_than_all : Py.slice_to [1; 2; 3] (-5) = [].
Proof. reflexivity. Qed.

Example index_of_empty : Py.index (@nil Z) (-1) = None.
Proof. reflexivity. Qed.

Lemma bound_range (len i : Z) : 0 <= len -> 0 <= Py.bound len i <= len.
Proof.
  intros Hlen. bound_cases; lia.
Qed.

Lemma slice_to_from {A : Type} (l : list A) (i : Z) :
  l = (Py.slice_to l i ++ Py.slice_from l i)%list.
Proof.
  unfold Py.slice_to, Py.slice_from. symmetry. apply firstn_skipn.
Qed.

(** What [l[:-k]] leaves behind is [l[-k:]] unless [k] is zero, and then
    it is the whole of [l]. *)
Lemma slice_from_length {A : Type} (l : list A) (i : Z) :
  Z.of_nat (List.length (Py.slice_from l i))
  = Z.of_nat (List.length l) - Py.bound (Z.of_nat (List.length l)) i.
Proof.
  unfold Py.slice_from. rewrite length_skipn.
  pose proof (bound_range (Z.of_nat (List.length l)) i ltac:(lia)). lia.
Qed.


Lemma index_last {A : Type} (older : list A) (m : A) :
  Py.index (older ++ [m]) (-1) = Some m.
Proof.
  unfold Py.index. rewrite length_app. cbn [List.length].
  replace (-1 <? 0) with true by reflexivity.
  replace (-1 + Z.of_nat (List.length older + 1)) with (Z.of_nat (List.length older)) by lia.
  destruct (Z.leb_spec 0 (Z.of_nat (List.length older))); [|lia].
  destruct (Z.ltb_spec (Z.of_nat (List.length older)) (Z.of_nat (List.length older + 1))); [|lia].
  cbn [andb]. rewrite Nat2Z.id.
  rewrite nth_error_app2 by lia. now rewrite Nat.sub_diag.
Qed.

(** ** The engine's merge: general facts *)

Lemma apply_empty_update (raw : string -> message) (st : AICompanionState) :
  apply_update raw st empty_update = st.
Proof. destruct st; reflexivity. Qed.

Lemma id_eqb_eq (i j : option string) : id_eqb i j = true <-> i = j.
Proof.
  destruct i as [a|], j as [b|]; cbn; try (split; congruence).
  rewrite String.eqb_eq. split; congruence.
Qed.

Lemma marked_iff (markers : list message) (m : message) :
  marked markers m = true <-> In (id m) (map id markers).
Proof.
  unfold marked. rewrite existsb_exists, in_map_iff. split.
  - intros [r [Hin Heq]]. apply id_eqb_eq in Heq. now exists r.
  - intros [r [Heq Hin]]. exists r. split; [assumption|]. now apply id_eqb_eq.
Qed.

Lemma filter_all {A : Type} (f : A -> bool) (l : list A) :
  (forall x, In x l -> f x = true) -> filter f l = l.
Proof.
  induction l as [|a l IH]; intros Hall; cbn; [reflexivity|].
  rewrite (Hall a (or_introl eq_refl)). f_equal. apply IH.
  intros x Hx. apply Hall. now right.
Qed.

Lemma filter_none {A : Type} (f : A -> bool) (l : list A) :
  (forall x, In x l -> f x = false) -> filter f l = [].
Proof.
  induction l as [|a l IH]; intros Hall; cbn; [reflexivity|].
  rewrite (Hall a (or_introl eq_refl)). apply IH.
  intros x Hx. apply Hall. now right.
Qed.

(** Appending one message that is not a removal marker. *)
Lemma add_one_message (old : list message) (m : message) :
  is_remove m = false -> add_messages old [m] = (old ++ [m])%list.
Proof.
  intros Hm. unfold add_messages. cbn [filter]. rewrite Hm. cbn [negb filter].
  f_equal. apply filter_all. intros x _. reflexivity.
Qed.

(** ** The router *)

(** C1 (as stated, refuted): with a classifier that answers the label
    [video], the router node returns that label as the workflow; the
    workflow is then none of conversation, image and audio, and in
    particular it is not conversation. *)
Lemma router_node_keeps_unrecognized_label :
  exists out,
    run (scripted video_script) (router_node 5 kyoto_state) 0%nat
    = (Ok out, 1%nat, [Called (RouterInvoke (messages kyoto_state))])
    /\ u_workflow out = Some "video"
    /\ ~ In "video" workflows.
Proof.
  eexists. split; [reflexivity|]. split; [reflexivity|].
  cbv [workflows In]. intros [H|[H|[H|[]]]]; discriminate H.
Qed.

(** C1 (amended): for every state, when the classifier answers the window
    of the last [ROUTER_MESSAGES_TO_ANALYZE] messages, the router node
    returns without failing, its only call is that classification, and its
    update sets [workflow] to the classifier's label, whatever it is, and
    no other key: merged into the state, only [workflow] changes. *)
Theorem router_node_sets_workflow_to_label
        (N : Z) {W : Type} (h : handler W) (w w' : W)
        (st : AICompanionState) (resp : RouterResponse) :
  let window := Py.slice_from (messages st) (- N) in
  h _ (RouterInvoke window) w = (Some resp, w') ->
  run h (router_node N st) w
  = (Ok (mkUpdate None None (Some (response_type resp)) None None None None None),
     w', [Called (RouterInvoke window)])
  /\ forall raw, apply_update raw st
         (mkUpdate None None (Some (response_type resp)) None None None None None)
       = mkState (messages st) (summary st) (Some (response_type resp))
                 (current_activity st) (apply_activity st) (memory_context st)
                 (image_path st) (audio_buffer st).
Proof.
  intros window Hc. split.
  - unfold router_node. fold window. step Hc. reflexivity.
  - intros raw. reflexivity.
Qed.

Lemma router_node_sets_workflow_to_label_witness :
  run (scripted kyoto_script) (router_node 2 kyoto_state) 0%nat
  = (Ok (mkUpdate None None (Some "image") None None None None None), 1%nat,
     [Called (RouterInvoke [agent "Walking around Gion." "m4"; user "Show me!" "m5"])]).
Proof.
  exact (proj1 (router_node_sets_workflow_to_label 2 (scripted kyoto_script) 0%nat 1%nat
                  kyoto_state {| response_type := "image" |} eq_refl)).
Defined.

(** ** Context injection *)



(** ** Memory injection *)

(** What the memory injection node does on any state. *)
Lemma memory_injection_node_run
      {W : Type} (h : handler W) (w w1 w2 : W) (st : AICompanionState)
      (memories : list Memory) (text : string) :
  let query := Py.join " " (map content (Py.slice_from (messages st) (-3))) in
  h _ (GetRelevantMemories query) w = (Some memories, w1) ->
  h _ (FormatMemoriesForPrompt memories) w1 = (Some text, w2) ->
  run h (memory_injection_node st) w
  = (Ok (mkUpdate None None None None None (Some text) None None), w2,
     [Called (GetRelevantMemories query); Called (FormatMemoriesForPrompt memories)]).
Proof.
  intros query H1 H2. unfold memory_injection_node. fold query.
  step H1. step H2. reflexivity.
Qed.

(** C5 (as stated, refuted): on the state of a fresh thread, whose
    [messages] is empty, the memory injection node queries the store (with
    the empty query) and returns an update that sets [memory_context]; the
    state after the update is not the state before. *)
Lemma memory_injection_node_queries_on_empty_history :
  messages initial_state = []
  /\ exists out,
      run (scripted kyoto_script) (memory_injection_node initial_state) 0%nat
      = (Ok out, 2%nat,
         [Called (GetRelevantMemories "");
          Called (FormatMemoriesForPrompt ["Alex loves jazz"])])
      /\ out <> empty_update
      /\ apply_update as_human initial_state out <> initial_state.
Proof.
  split; [reflexivity|]. eexists. split; [reflexivity|]. split; discriminate.
Qed.

(** C5 (amended): for every state with empty [messages], the memory
    injection node does not fail on the empty history: it asks the store
    for the memories relevant to the empty query, formats them, and returns
    an update whose only key is [memory_context], set to the formatted
    text; merged into the state, no other field changes. *)
Theorem memory_injection_node_on_empty_history
        {W : Type} (h : handler W) (w w1 w2 : W) (st : AICompanionState)
        (memories : list Memory) (text : string) :
  messages st = [] ->
  h _ (GetRelevantMemories "") w = (Some memories, w1) ->
  h _ (FormatMemoriesForPrompt memories) w1 = (Some text, w2) ->
  run h (memory_injection_node st) w
  = (Ok (mkUpdate None None None None None (Some text) None None), w2,
     [Called (GetRelevantMemories ""); Called (FormatMemoriesForPrompt memories)])
  /\ forall raw,
      apply_update raw st (mkUpdate None None None None None (Some text) None None)
      = mkState [] (summary st) (workflow st) (current_activity st)
                (apply_activity st) (Some text) (image_path st) (audio_buffer st).
Proof.
  intros Hempty H1 H2. split.
  - pose proof (memory_injection_node_run h w w1 w2 st memories text) as Hrun.
    rewrite Hempty in Hrun. exact (Hrun H1 H2).
  - intros raw. unfold apply_update. cbn. now rewrite Hempty.
Qed.

Lemma memory_injection_node_on_empty_history_witness :
  run (scripted kyoto_script) (memory_injection_node initial_state) 0%nat
  = (Ok (mkUpdate None None None None None (Some "- Alex loves jazz") None None),
     2%nat,
     [Called (GetRelevantMemories "");
      Called (FormatMemoriesForPrompt ["Alex loves jazz"])]).
Proof.
  exact (proj1 (memory_injection_node_on_empty_history
                  (scripted kyoto_script) 0%nat 1%nat 2%nat initial_state
                  ["Alex loves jazz"] "- Alex loves jazz" eq_refl eq_refl eq_refl)).
Defined.

(** ** Memory extraction *)

(** C7: for every state, the memory extraction node returns the empty
    update without calling anything when [messages] is empty, so the state
    is unchanged; otherwise its only call hands the last message, and no
    other, to the store's extraction routine, and once that returns the
    node returns the empty update. *)
Theorem memory_extraction_node_latest_only
        {W : Type} (h : handler W) (w : W) (st : AICompanionState) :
  (messages st = [] ->
   run h (memory_extraction_node st) w = (Ok empty_update, w, [])
   /\ forall raw, apply_update raw st empty_update = st)
  /\ (forall older latest w',
       messages st = (older ++ [latest])%list ->
       h _ (ExtractAndStoreMemories latest) w = (Some tt, w') ->
       run h (memory_extraction_node st) w
       = (Ok empty_update, w', [Called (ExtractAndStoreMemories latest)])
       /\ forall raw, apply_update raw st empty_update = st).
Proof.
  split.
  - intros Hempty. split; [|intros raw; apply apply_empty_update].
    unfold memory_extraction_node. now rewrite Hempty.
  - intros older latest w' Hmsgs Hc. split; [|intros raw; apply apply_empty_update].
    unfold memory_extraction_node. rewrite Hmsgs, index_last.
    destruct (older ++ [latest])%list eqn:Happ.
    + now destruct older.
    + cbn [lift bind]. cbn [call bind run]. rewrite Hc. reflexivity.
Qed.

Lemma memory_extraction_node_latest_only_witness :
  run (scripted kyoto_script) (memory_extraction_node initial_state) 0%nat
  = (Ok empty_update, 0%nat, [])
  /\ run (scripted kyoto_script) (memory_extraction_node kyoto_state) 0%nat
     = (Ok empty_update, 1%nat,
        [Called (ExtractAndStoreMemories (user "Show me!" "m5"))]).
Proof.
  split.
  - exact (proj1 (proj1 (memory_extraction_node_latest_only
                           (scripted kyoto_script) 0%nat initial_state) eq_refl)).
  - exact (proj1 (proj2 (memory_extraction_node_latest_only
                           (scripted kyoto_script) 0%nat kyoto_state)
                        [user "Hi, I'm Alex and I love jazz." "m1";
                         agent "Nice to meet you, Alex!" "m2";
                         user "Where are you today?" "m3";
                         agent "Walking around Gion." "m4"]
                        (user "Show me!" "m5") 1%nat eq_refl eq_refl)).
Defined.

(** ** The response generators *)

(** What the image node does once every collaborator has answered. *)
Lemma image_node_run
      {W : Type} (h : handler W) (w w1 w2 w3 w4 w5 w6 : W)
      (st : AICompanionState) (config : RunnableConfig)
      (activity uuid response : string) (scenario : ScenarioPrompt) (image : bytes) :
  let img_path := "generated_images/image_" ++ uuid ++ ".png" in
  let synthetic :=
    HumanMessage ("<image attached by Ava generated from prompt: "
                  ++ image_prompt scenario ++ ">") None in
  let invocation :=
    ChainInvoke (Py.get (summary st) "") (messages st ++ [synthetic])%list
                activity (Py.get (memory_context st) "") config in
  h _ GetCurrentActivity w = (Some activity, w1) ->
  h _ (CreateScenario (Py.slice_from (messages st) (-5))) w1 = (Some scenario, w2) ->
  h _ (Makedirs "generated_images") w2 = (Some tt, w3) ->
  h _ Uuid4 w3 = (Some uuid, w4) ->
  h _ (GenerateImage (image_prompt scenario) img_path) w4 = (Some image, w5) ->
  h _ invocation w5 = (Some response, w6) ->
  run h (image_node st config) w
  = (Ok (mkUpdate (Some (OneMessage (AIMessage response None)))
                  None None None None None (Some img_path) None),
     w6,
     [Called GetCurrentActivity;
      Called (CreateScenario (Py.slice_from (messages st) (-5)));
      Called (Makedirs "generated_images");
      Called Uuid4;
      Called (GenerateImage (image_prompt scenario) img_path);
      Called invocation]).
Proof.
  intros img_path synthetic invocation H1 H2 H3 H4 H5 H6.
  unfold image_node. step H1. step H2. step H3. step H4.
  fold img_path. step H5. fold synthetic. fold invocation. step H6.
  reflexivity.
Qed.

(** C2 (as stated, refuted): on a thread whose scenario prompt is
    [a sunset over Kyoto], the image node returns only the new agent
    message under [messages]; the history after the update is the old
    history followed by that agent message, and the synthetic message that
    quotes the prompt is not in it. *)
Lemma image_node_history_lacks_synthetic_message :
  exists out,
    fst (fst (run (scripted kyoto_script) (image_node kyoto_state []) 0%nat)) = Ok out
    /\ u_messages out = Some (OneMessage (AIMessage "Here is the view!" None))
    /\ messages (apply_update as_human kyoto_state out)
       = (messages kyoto_state ++ [AIMessage "Here is the view!" None])%list
    /\ ~ In (HumanMessage
               "<image attached by Ava generated from prompt: a sunset over Kyoto>" None)
            (messages (apply_update as_human kyoto_state out)).
Proof.
  eexists. split; [reflexivity|]. split; [reflexivity|]. split; [reflexivity|].
  cbn. intros H. repeat (destruct H as [H|H]; [discriminate H|]). exact H.
Qed.

(** C2 (amended): for every state on the image path, once the
    collaborators have answered, the image node has built a synthetic
    user-role message that quotes the exact generated image prompt and has
    invoked the response chain on the existing history followed
    immediately by that message, so the message precedes the generation of
    the agent response; the synthetic message is not stored: the returned
    update holds only the new agent message under [messages], so that the
    resulting history is the existing history followed by the new agent
    message, and it also carries the [image_path] artifact. *)
Theorem image_node_shows_synthetic_message_to_chain
        {W : Type} (h : handler W) (w w1 w2 w3 w4 w5 w6 : W)
        (st : AICompanionState) (config : RunnableConfig)
        (activity uuid response prompt : string) (image : bytes) :
  let img_path := "generated_images/image_" ++ uuid ++ ".png" in
  let synthetic :=
    HumanMessage ("<image attached by Ava generated from prompt: " ++ prompt ++ ">")
                 None in
  let invocation :=
    ChainInvoke (Py.get (summary st) "") (messages st ++ [synthetic])%list
                activity (Py.get (memory_context st) "") config in
  h _ GetCurrentActivity w = (Some activity, w1) ->
  h _ (CreateScenario (Py.slice_from (messages st) (-5))) w1
    = (Some {| image_prompt := prompt |}, w2) ->
  h _ (Makedirs "generated_images") w2 = (Some tt, w3) ->
  h _ Uuid4 w3 = (Some uuid, w4) ->
  h _ (GenerateImage prompt img_path) w4 = (Some image, w5) ->
  h _ invocation w5 = (Some response, w6) ->
  exists out before,
    run h (image_node st config) w = (Ok out, w6, (before ++ [Called invocation])%list)
    /\ is_human synthetic = true
    /\ u_messages out = Some (OneMessage (AIMessage response None))
    /\ u_image_path out = Some img_path
    /\ forall raw,
        messages (apply_update raw st out)
        = (messages st ++ [AIMessage response None])%list.
Proof.
  intros img_path synthetic invocation H1 H2 H3 H4 H5 H6.
  pose proof (image_node_run h w w1 w2 w3 w4 w5 w6 st config activity uuid
                response {| image_prompt := prompt |} image H1 H2 H3 H4 H5 H6) as Hrun.
  cbn [image_prompt] in Hrun. fold img_path synthetic invocation in Hrun.
  eexists.
  exists [Called GetCurrentActivity;
          Called (CreateScenario (Py.slice_from (messages st) (-5)));
          Called (Makedirs "generated_images");
          Called Uuid4;
          Called (GenerateImage prompt img_path)].
  split; [exact Hrun|]. split; [reflexivity|]. split; [reflexivity|].
  split; [reflexivity|].
  intros raw. cbn [apply_update u_messages messages as_list].
  now apply add_one_message.
Qed.

Lemma image_node_shows_synthetic_message_to_chain_witness :
  exists out before,
    run (scripted kyoto_script) (image_node kyoto_state []) 0%nat
    = (Ok out, 6%nat,
       (before ++
        [Called (ChainInvoke "Alex likes jazz."
           (messages kyoto_state ++
            [HumanMessage
               "<image attached by Ava generated from prompt: a sunset over Kyoto>"
               None])%list
           "visiting a temple" "- Alex loves jazz" [])])%list)
    /\ u_image_path out = Some "generated_images/image_0001.png".
Proof.
  destruct (image_node_shows_synthetic_message_to_chain
              (scripted kyoto_script) 0%nat 1%nat 2%nat 3%nat 4%nat 5%nat 6%nat
              kyoto_state [] "visiting a temple" "0001" "Here is the view!"
              "a sunset over Kyoto" []
              eq_refl eq_refl eq_refl eq_refl eq_refl eq_refl)
    as [out [before [Hrun [_ [_ [Hpath _]]]]]].
  exists out, before. split; [exact Hrun | exact Hpath].
Defined.

(** C8: for every state on the audio path, once the collaborators have
    answered, the audio node has called the response chain first and the
    speech module second, on exactly the text the chain returned; its
    update stores that text as it is under [messages], with the audio bytes
    under [audio_buffer], whereas whatever the conversation and image
    nodes return under [messages] is an [AIMessage] object. *)
Theorem audio_node_stores_raw_text
        {W : Type} (h : handler W) (w w1 w2 w3 : W)
        (st : AICompanionState) (config : RunnableConfig)
        (activity response : string) (audio : bytes) :
  let invocation :=
    ChainInvoke (Py.get (summary st) "") (messages st) activity
                (Py.get (memory_context st) "") config in
  h _ GetCurrentActivity w = (Some activity, w1) ->
  h _ invocation w1 = (Some response, w2) ->
  h _ (Synthesize response) w2 = (Some audio, w3) ->
  run h (audio_node st config) w
  = (Ok (mkUpdate (Some (RawText response)) None None None None None None (Some audio)),
     w3,
     [Called GetCurrentActivity; Called invocation; Called (Synthesize response)])
  /\ (forall (h' : handler W) v out v' tr,
       run h' (conversation_node st config) v = (Ok out, v', tr) ->
       exists text, u_messages out = Some (OneMessage (AIMessage text None)))
  /\ (forall (h' : handler W) v out v' tr,
       run h' (image_node st config) v = (Ok out, v', tr) ->
       exists text, u_messages out = Some (OneMessage (AIMessage text None))).
Proof.
  intros invocation H1 H2 H3. split; [|split].
  - unfold audio_node. step H1. fold invocation. step H2. step H3. reflexivity.
  - intros h' v out v' tr. unfold conversation_node.
    repeat (answer; [|discriminate]).
    cbn [run]. intros H. injection H as <- _ _. eexists. reflexivity.
  - intros h' v out v' tr. unfold image_node.
    repeat (answer; [|discriminate]).
    cbn [run]. intros H. injection H as <- _ _. eexists. reflexivity.
Qed.

Lemma audio_node_stores_raw_text_witness :
  run (scripted kyoto_script) (audio_node kyoto_state []) 0%nat
  = (Ok (mkUpdate (Some (RawText "Here is the view!")) None None None None None None
                  (Some [x2a; x2b]%byte)),
     3%nat,
     [Called GetCurrentActivity;
      Called (ChainInvoke "Alex likes jazz." (messages kyoto_state)
                          "visiting a temple" "- Alex loves jazz" []);
      Called (Synthesize "Here is the view!")])
  /\ (exists text,
       u_messages (mkUpdate (Some (OneMessage (AIMessage "Here is the view!" None)))
                            None None None None None None None)
       = Some (OneMessage (AIMessage text None)))
  /\ (exists text,
       u_messages (mkUpdate (Some (OneMessage (AIMessage "Here is the view!" None)))
                            None None None None None
                            (Some "generated_images/image_0001.png") None)
       = Some (OneMessage (AIMessage text None))).
Proof.
  destruct (audio_node_stores_raw_text
              (scripted kyoto_script) 0%nat 1%nat 2%nat 3%nat kyoto_state []
              "visiting a temple" "Here is the view!" [x2a; x2b]%byte
              eq_refl eq_refl eq_refl) as [Haudio [Hconversation Himage]].
  split; [exact Haudio|]. split.
  - exact (Hconversation (scripted kyoto_script) 0%nat _ _ _ eq_refl).
  - exact (Himage (scripted kyoto_script) 0%nat _ _ _ eq_refl).
Defined.

(** C9: two states that agree on every field but [current_activity] and
    [apply_activity] get the same result, the same calls and the same
    final world from each of the three response generators, in any world:
    the generators ask the schedule for the activity and read neither
    field. *)
Theorem generators_ignore_activity_fields
        {W : Type} (h : handler W) (w : W) (config : RunnableConfig)
        (msgs : list message) (summ wf mem img : option string)
        (aud : option bytes)
        (activity1 activity2 : option string) (apply1 apply2 : option bool) :
  let s1 := mkState msgs summ wf activity1 apply1 mem img aud in
  let s2 := mkState msgs summ wf activity2 apply2 mem img aud in
  run h (conversation_node s1 config) w = run h (conversation_node s2 config) w
  /\ run h (image_node s1 config) w = run h (image_node s2 config) w
  /\ run h (audio_node s1 config) w = run h (audio_node s2 config) w.
Proof.
  intros s1 s2. repeat split; reflexivity.
Qed.

(** ** Summarization *)

Lemma NoDup_app_disjoint {A : Type} (l1 l2 : list A) (x : A) :
  NoDup (l1 ++ l2) -> In x l1 -> ~ In x l2.
Proof.
  induction l1 as [|a l1 IH]; cbn; intros Hnd Hin; [contradiction|].
  inversion Hnd as [|? ? Hnotin Hnd']; subst.
  destruct Hin as [->|Hin].
  - intros Hx. apply Hnotin. apply in_or_app. now right.
  - now apply IH.
Qed.

Lemma markers_ids (pruned : list message) :
  map id (map (fun m => RemoveMessage (id m)) pruned) = map id pruned.
Proof. rewrite map_map. reflexivity. Qed.

Lemma markers_are_removals (pruned : list message) :
  Forall (fun m => is_remove m = true) (map (fun m => RemoveMessage (id m)) pruned).
Proof.
  apply Forall_forall. intros m Hin. apply in_map_iff in Hin.
  destruct Hin as [x [<- _]]. reflexivity.
Qed.

(** Merging the removal markers of a prefix: the messages whose identity
    is not among the pruned ones stay, in order, and nothing is added. *)
Lemma add_markers (old pruned : list message) :
  add_messages old (map (fun m => RemoveMessage (id m)) pruned)
  = filter (fun m => negb (marked (map (fun m => RemoveMessage (id m)) pruned) m)) old.
Proof.
  unfold add_messages.
  rewrite (filter_all is_remove), (filter_none (fun m => negb (is_remove m))).
  - apply app_nil_r.
  - intros x Hin. apply in_map_iff in Hin. destruct Hin as [y [<- _]]. reflexivity.
  - intros x Hin. apply in_map_iff in Hin. destruct Hin as [y [<- _]]. reflexivity.
Qed.

(** With distinct identities, removing the markers of a prefix leaves
    exactly the rest. *)
Lemma remove_prefix_by_identity (pruned kept : list message) :
  NoDup (map id (pruned ++ kept)) ->
  add_messages (pruned ++ kept) (map (fun m => RemoveMessage (id m)) pruned) = kept.
Proof.
  intros Hnd. rewrite add_markers, filter_app.
  rewrite map_app in Hnd.
  rewrite filter_none, filter_all; [reflexivity| |].
  - intros x Hin. apply negb_true_iff.
    destruct (marked _ x) eqn:Hm; [|reflexivity].
    apply marked_iff in Hm. rewrite markers_ids in Hm.
    exfalso. apply (NoDup_app_disjoint _ _ _ Hnd Hm). now apply in_map.
  - intros x Hin. apply negb_false_iff. apply marked_iff.
    rewrite markers_ids. now apply in_map.
Qed.

Lemma summarize_conversation_node_run
      (K : Z) {W : Type} (h : handler W) (w w' : W)
      (st : AICompanionState) (resp : ModelResponse) :
  let invocation :=
    ModelInvoke (messages st ++ [HumanMessage (summary_message st) None])%list in
  h _ invocation w = (Some resp, w') ->
  run h (summarize_conversation_node K st) w
  = (Ok (mkUpdate (Some (MessageList (delete_messages K st)))
                  (Some (response_content resp)) None None None None None None),
     w', [Called invocation]).
Proof.
  intros invocation Hc. unfold summarize_conversation_node. fold invocation.
  step Hc. reflexivity.
Qed.



(** C4: for every state, the one call of the summarization node is the
    model invoked on the full message history followed by one instruction
    message.  When [summary] is absent or empty the instruction asks to
    create a summary of the conversation above; when [summary] is a
    non-empty text the instruction quotes that text and asks to extend the
    summary by the new messages. *)
Theorem summarize_node_instruction
        (K : Z) {W : Type} (h : handler W) (w : W) (st : AICompanionState) :
  exists instruction,
    snd (run h (summarize_conversation_node K st) w)
    = [Called (ModelInvoke (messages st ++ [HumanMessage instruction None])%list)]
    /\ (Py.get (summary st) "" = "" ->
        instruction
        = "Create a summary of the conversation above between Ava and the user. The summary must be a short description of the conversation so far, but that captures all the relevant information shared between Ava and the user:")
    /\ (forall previous,
         summary st = Some previous -> previous <> "" ->
         instruction
         = "This is summary of the conversation to date between Ava and the user: "
           ++ previous ++ Py.newline ++ Py.newline
           ++ "Extend the summary by taking into account the new messages above:").
Proof.
  exists (summary_message st). split; [|split].
  - unfold summarize_conversation_node. answer; [|reflexivity].
    cbn [run]. reflexivity.
  - intros Hempty. unfold summary_message. rewrite Hempty. reflexivity.
  - intros previous Hsome Hne. unfold summary_message. rewrite Hsome.
    cbn [Py.get]. destruct previous; [congruence|]. reflexivity.
Qed.

Lemma summarize_node_instruction_witness :
  exists fresh extended,
    snd (run (scripted kyoto_script) (summarize_conversation_node 2 initial_state) 0%nat)
    = [Called (ModelInvoke [HumanMessage fresh None])]
    /\ fresh
       = "Create a summary of the conversation above between Ava and the user. The summary must be a short description of the conversation so far, but that captures all the relevant information shared between Ava and the user:"
    /\ snd (run (scripted kyoto_script) (summarize_conversation_node 2 kyoto_state) 0%nat)
       = [Called (ModelInvoke (messages kyoto_state ++ [HumanMessage extended None])%list)]
    /\ extended
       = "This is summary of the conversation to date between Ava and the user: "
         ++ "Alex likes jazz." ++ Py.newline ++ Py.newline
         ++ "Extend the summary by taking into account the new messages above:".
Proof.
  destruct (summarize_node_instruction 2 (scripted kyoto_script) 0%nat initial_state)
    as [fresh [Hfresh [Hcreate _]]].
  destruct (summarize_node_instruction 2 (scripted kyoto_script) 0%nat kyoto_state)
    as [extended [Hext [_ Hextend]]].
  exists fresh, extended.
  split; [exact Hfresh|]. split; [exact (Hcreate eq_refl)|]. split; [exact Hext|].
  apply (Hextend "Alex likes jazz." eq_refl). discriminate.
Defined.

(** C10: for every state, once the model has answered, the update of the
    summarization node has two keys only, [summary] and [messages]; the
    value under [messages] is a list of removal markers and nothing else,
    the instruction message went to the model call and is not in it, and
    merging the update into the state adds no message to the history and
    changes no field besides [messages] and [summary]. *)
Theorem summarize_node_appends_nothing
        (K : Z) {W : Type} (h : handler W) (w w' : W)
        (st : AICompanionState) (resp : ModelResponse) :
  let instruction := HumanMessage (summary_message st) None in
  h _ (ModelInvoke (messages st ++ [instruction])%list) w = (Some resp, w') ->
  exists removals,
    run h (summarize_conversation_node K st) w
    = (Ok (mkUpdate (Some (MessageList removals)) (Some (response_content resp))
                    None None None None None None),
       w', [Called (ModelInvoke (messages st ++ [instruction])%list)])
    /\ Forall (fun m => is_remove m = true) removals
    /\ ~ In instruction removals
    /\ forall raw,
        let st' := apply_update raw st
                     (mkUpdate (Some (MessageList removals))
                               (Some (response_content resp))
                               None None None None None None) in
        incl (messages st') (messages st)
        /\ (List.length (messages st') <= List.length (messages st))%nat
        /\ st' = mkState (messages st') (Some (response_content resp)) (workflow st)
                         (current_activity st) (apply_activity st)
                         (memory_context st) (image_path st) (audio_buffer st).
Proof.
  intros instruction Hc. exists (delete_messages K st).
  split; [exact (summarize_conversation_node_run K h w w' st resp Hc)|].
  split; [apply markers_are_removals|]. split.
  - intros Hin.
    pose proof (proj1 (Forall_forall _ _) (markers_are_removals
                  (Py.slice_to (messages st) (- K))) instruction Hin) as Hrem.
    discriminate Hrem.
  - intros raw st'. subst st'.
    split; [|split]; [| |reflexivity];
      cbn [apply_update u_messages messages as_list];
      unfold delete_messages; rewrite add_markers.
    + intros m Hin. apply filter_In in Hin. tauto.
    + apply filter_length_le.
Qed.

Lemma summarize_node_appends_nothing_witness :
  exists removals,
    run (scripted kyoto_script) (summarize_conversation_node 2 kyoto_state) 0%nat
    = (Ok (mkUpdate (Some (MessageList removals))
                    (Some "Alex likes jazz and asked for a picture.")
                    None None None None None None),
       1%nat,
       [Called (ModelInvoke
                  (messages kyoto_state
                   ++ [HumanMessage (summary_message kyoto_state) None])%list)])
    /\ Forall (fun m => is_remove m = true) removals.
Proof.
  destruct (summarize_node_appends_nothing 2 (scripted kyoto_script) 0%nat 1%nat
              kyoto_state {| response_content := "Alex likes jazz and asked for a picture." |}
              eq_refl)
    as [removals [Hrun [Hall _]]].
  exists removals. split; [exact Hrun | exact Hall].
Defined.

(** ** Further properties of the nodes *)

(** *** Windows on the history *)

Lemma slice_from_last {A : Type} (l : list A) (n : Z) :
  0 < n ->
  Py.slice_from l (- n) = skipn (List.length l - Z.to_nat n) l.
Proof.
  intros Hn. unfold Py.slice_from. f_equal. bound_cases; lia.
Qed.

Lemma slice_from_drop {A : Type} (l : list A) (n : Z) :
  n <= 0 ->
  Py.slice_from l (- n) = skipn (Z.to_nat (- n)) l.
Proof.
  intros Hn. unfold Py.slice_from.
  assert (Hcases : Z.to_nat (Py.bound (Z.of_nat (List.length l)) (- n)) = Z.to_nat (- n)
                   \/ ((List.length l <= Z.to_nat (- n))%nat
                       /\ Z.to_nat (Py.bound (Z.of_nat (List.length l)) (- n))
                          = List.length l)).
  { bound_cases; lia. }
  destruct Hcases as [->|[Hshort ->]]; [reflexivity|].
  rewrite skipn_all. symmetry. now apply skipn_all2.
Qed.

Lemma slice_from_app_last {A : Type} (older recent : list A) :
  recent <> [] ->
  Py.slice_from (older ++ recent) (- Z.of_nat (List.length recent)) = recent.
Proof.
  intros Hne. rewrite slice_from_last.
  - rewrite Nat2Z.id, length_app.
    replace (List.length older + List.length recent - List.length recent)%nat
      with (List.length older) by lia.
    rewrite skipn_app, skipn_all, Nat.sub_diag. reflexivity.
  - destruct recent; [congruence|]. cbn [List.length]. lia.
Qed.

Lemma router_node_trace (N : Z) {W : Type} (h : handler W) (w : W)
      (st : AICompanionState) :
  snd (run h (router_node N st) w)
  = [Called (RouterInvoke (Py.slice_from (messages st) (- N)))].
Proof.
  unfold router_node. answer; reflexivity.
Qed.

(** X1: with a positive [ROUTER_MESSAGES_TO_ANALYZE], whatever the
    classifier does, the router node makes one call, on a suffix of the
    history, in the history's order, of [min N len] messages: the messages
    before the last [N] are never sent to the classifier. *)
Theorem router_node_sends_recent_suffix
        (N : Z) {W : Type} (h : handler W) (w : W) (st : AICompanionState) :
  0 < N ->
  exists older window,
    messages st = (older ++ window)%list
    /\ Z.of_nat (List.length window) = Z.min N (Z.of_nat (List.length (messages st)))
    /\ snd (run h (router_node N st) w) = [Called (RouterInvoke window)].
Proof.
  intros HN.
  exists (Py.slice_to (messages st) (- N)), (Py.slice_from (messages st) (- N)).
  split; [apply slice_to_from|]. split; [|apply router_node_trace].
  rewrite slice_from_length. bound_cases; lia.
Qed.

Lemma router_node_sends_recent_suffix_witness :
  exists older window,
    messages kyoto_state = (older ++ window)%list
    /\ Z.of_nat (List.length window) = 2
    /\ snd (run (scripted kyoto_script) (router_node 2 kyoto_state) 0%nat)
       = [Called (RouterInvoke window)].
Proof.
  assert (Hpos : 0 < 2) by reflexivity.
  destruct (router_node_sends_recent_suffix 2 (scripted kyoto_script) 0%nat
              kyoto_state Hpos) as [older [window [Hsplit [Hlen Htrace]]]].
  exists older, window. split; [exact Hsplit|]. split; [exact Hlen | exact Htrace].
Defined.

(** X2: with a [ROUTER_MESSAGES_TO_ANALYZE] that is zero or negative,
    [messages[-N:]] is the history without its first [-N] messages; in
    particular for [N = 0] the classifier gets the whole history, not an
    empty window. *)
Theorem router_node_window_without_positive_size
        (N : Z) {W : Type} (h : handler W) (w : W) (st : AICompanionState) :
  N <= 0 ->
  snd (run h (router_node N st) w)
  = [Called (RouterInvoke (skipn (Z.to_nat (- N)) (messages st)))]
  /\ (N = 0 ->
      snd (run h (router_node N st) w) = [Called (RouterInvoke (messages st))]).
Proof.
  intros HN. rewrite router_node_trace, slice_from_drop by assumption.
  split; [reflexivity|]. intros ->. reflexivity.
Qed.

Lemma router_node_window_without_positive_size_witness :
  snd (run (scripted kyoto_script) (router_node 0 kyoto_state) 0%nat)
  = [Called (RouterInvoke (messages kyoto_state))]
  /\ snd (run (scripted kyoto_script) (router_node (-4) kyoto_state) 0%nat)
     = [Called (RouterInvoke [user "Show me!" "m5"])].
Proof.
  assert (H0 : 0 <= 0) by discriminate.
  assert (H4 : -4 <= 0) by discriminate.
  split.
  - exact (proj2 (router_node_window_without_positive_size
                    0 (scripted kyoto_script) 0%nat kyoto_state H0) eq_refl).
  - exact (proj1 (router_node_window_without_positive_size
                    (-4) (scripted kyoto_script) 0%nat kyoto_state H4)).
Defined.

(** X3: the memory extraction node never fails on its own indexing:
    whatever the state and the world, it returns the empty update or fails
    because the store failed, and it makes at most one call. *)
Theorem memory_extraction_node_index_safe
        {W : Type} (h : handler W) (w : W) (st : AICompanionState) :
  (fst (fst (run h (memory_extraction_node st) w)) = Ok empty_update
   \/ fst (fst (run h (memory_extraction_node st) w)) = Err ExternalFailure)
  /\ (List.length (snd (run h (memory_extraction_node st) w)) <= 1)%nat.
Proof.
  unfold memory_extraction_node.
  destruct (messages st) as [|m l] eqn:Hmsgs.
  - cbn. split; [now left | lia].
  - destruct (@exists_last _ (m :: l)) as [older [latest Hlast]]; [discriminate|].
    rewrite Hlast, index_last. cbn [lift].
    answer; cbn; (split; [tauto | lia]).
Qed.

Lemma memory_injection_node_trace_head
      {W : Type} (h : handler W) (w : W) (st : AICompanionState) :
  exists rest,
    snd (run h (memory_injection_node st) w)
    = Called (GetRelevantMemories
                (Py.join " " (map content (Py.slice_from (messages st) (-3)))))
      :: rest.
Proof.
  unfold memory_injection_node. answer; [|eexists; reflexivity].
  answer; eexists; reflexivity.
Qed.

(** X4: on a history of three messages or more, the query of the memory
    injection node is the contents of the last three messages joined by
    single spaces; two states whose last three messages have the same
    contents get the same run, whatever their older messages, the roles and
    identities of the messages and their other fields. *)
Theorem memory_injection_node_reads_last_three
        {W : Type} (h : handler W) (w : W) (s1 s2 : AICompanionState)
        (older1 older2 : list message) (a1 b1 c1 a2 b2 c2 : message) :
  messages s1 = (older1 ++ [a1; b1; c1])%list ->
  messages s2 = (older2 ++ [a2; b2; c2])%list ->
  content a1 = content a2 -> content b1 = content b2 -> content c1 = content c2 ->
  (exists rest,
      snd (run h (memory_injection_node s1) w)
      = Called (GetRelevantMemories
                  (content a1 ++ " " ++ content b1 ++ " " ++ content c1)) :: rest)
  /\ run h (memory_injection_node s1) w = run h (memory_injection_node s2) w.
Proof.
  intros H1 H2 Ha Hb Hc.
  assert (Hw1 : Py.slice_from (messages s1) (-3) = [a1; b1; c1]).
  { rewrite H1. apply (slice_from_app_last older1 [a1; b1; c1]). discriminate. }
  assert (Hw2 : Py.slice_from (messages s2) (-3) = [a2; b2; c2]).
  { rewrite H2. apply (slice_from_app_last older2 [a2; b2; c2]). discriminate. }
  split.
  - destruct (memory_injection_node_trace_head h w s1) as [rest Hrest].
    exists rest. rewrite Hrest, Hw1. reflexivity.
  - unfold memory_injection_node. rewrite Hw1, Hw2. cbn [map].
    rewrite Ha, Hb, Hc. reflexivity.
Qed.

Lemma memory_injection_node_reads_last_three_witness :
  exists rest,
    snd (run (scripted kyoto_script) (memory_injection_node kyoto_state) 0%nat)
    = Called (GetRelevantMemories "Where are you today? Walking around Gion. Show me!")
      :: rest.
Proof.
  exact (proj1 (memory_injection_node_reads_last_three
                  (scripted kyoto_script) 0%nat kyoto_state kyoto_state
                  [user "Hi, I'm Alex and I love jazz." "m1";
                   agent "Nice to meet you, Alex!" "m2"]
                  [user "Hi, I'm Alex and I love jazz." "m1";
                   agent "Nice to meet you, Alex!" "m2"]
                  (user "Where are you today?" "m3")
                  (agent "Walking around Gion." "m4") (user "Show me!" "m5")
                  (user "Where are you today?" "m3")
                  (agent "Walking around Gion." "m4") (user "Show me!" "m5")
                  eq_refl eq_refl eq_refl eq_refl eq_refl)).
Defined.

(** *** Failures of the collaborators *)

(** X5: when the speech module raises, the audio node fails although the
    chain has already produced the text: no update is returned, so the text
    is not stored either; and when the chain raises, the speech module is
    never called. *)
Theorem audio_node_fails_without_update
        {W : Type} (h : handler W) (w w1 : W)
        (st : AICompanionState) (config : RunnableConfig) (activity : string) :
  let invocation :=
    ChainInvoke (Py.get (summary st) "") (messages st) activity
                (Py.get (memory_context st) "") config in
  h _ GetCurrentActivity w = (Some activity, w1) ->
  (forall w2,
      h _ invocation w1 = (None, w2) ->
      run h (audio_node st config) w
      = (Err ExternalFailure, w2, [Called GetCurrentActivity; Called invocation]))
  /\ (forall response w2 w3,
        h _ invocation w1 = (Some response, w2) ->
        h _ (Synthesize response) w2 = (None, w3) ->
        run h (audio_node st config) w
        = (Err ExternalFailure, w3,
           [Called GetCurrentActivity; Called invocation;
            Called (Synthesize response)])).
Proof.
  intros invocation H1. split.
  - intros w2 H2. unfold audio_node. step H1. fold invocation.
    rewrite (run_bind_call_fails _ _ _ _ _ H2). reflexivity.
  - intros response w2 w3 H2 H3. unfold audio_node. step H1. fold invocation.
    step H2. rewrite (run_bind_call_fails _ _ _ _ _ H3). reflexivity.
Qed.

Lemma audio_node_fails_without_update_witness :
  run (scripted_but (@is_chain) kyoto_script) (audio_node kyoto_state []) 0%nat
  = (Err ExternalFailure, 2%nat,
     [Called GetCurrentActivity;
      Called (ChainInvoke "Alex likes jazz." (messages kyoto_state)
                          "visiting a temple" "- Alex loves jazz" [])])
  /\ run (scripted_but (@is_speech) kyoto_script) (audio_node kyoto_state []) 0%nat
     = (Err ExternalFailure, 3%nat,
        [Called GetCurrentActivity;
         Called (ChainInvoke "Alex likes jazz." (messages kyoto_state)
                             "visiting a temple" "- Alex loves jazz" []);
         Called (Synthesize "Here is the view!")]).
Proof.
  split.
  - exact (proj1 (audio_node_fails_without_update
                    (scripted_but (@is_chain) kyoto_script) 0%nat 1%nat kyoto_state []
                    "visiting a temple" eq_refl) 2%nat eq_refl).
  - exact (proj2 (audio_node_fails_without_update
                    (scripted_but (@is_speech) kyoto_script) 0%nat 1%nat kyoto_state []
                    "visiting a temple" eq_refl)
                 "Here is the view!" 2%nat 3%nat eq_refl eq_refl).
Defined.

(** X6: when the image generation raises, the image node fails after the
    directory has been created and the file name drawn: the response chain
    is never invoked and no update, hence no [image_path], is returned. *)
Theorem image_node_fails_before_chain
        {W : Type} (h : handler W) (w w1 w2 w3 w4 w5 : W)
        (st : AICompanionState) (config : RunnableConfig)
        (activity uuid : string) (scenario : ScenarioPrompt) :
  let img_path := "generated_images/image_" ++ uuid ++ ".png" in
  h _ GetCurrentActivity w = (Some activity, w1) ->
  h _ (CreateScenario (Py.slice_from (messages st) (-5))) w1 = (Some scenario, w2) ->
  h _ (Makedirs "generated_images") w2 = (Some tt, w3) ->
  h _ Uuid4 w3 = (Some uuid, w4) ->
  h _ (GenerateImage (image_prompt scenario) img_path) w4 = (None, w5) ->
  run h (image_node st config) w
  = (Err ExternalFailure, w5,
     [Called GetCurrentActivity;
      Called (CreateScenario (Py.slice_from (messages st) (-5)));
      Called (Makedirs "generated_images");
      Called Uuid4;
      Called (GenerateImage (image_prompt scenario) img_path)]).
Proof.
  intros img_path H1 H2 H3 H4 H5.
  unfold image_node. step H1. step H2. step H3. step H4. fold img_path.
  rewrite (run_bind_call_fails _ _ _ _ _ H5). reflexivity.
Qed.

Lemma image_node_fails_before_chain_witness :
  run (scripted_but (@is_image_generation) kyoto_script) (image_node kyoto_state [])
      0%nat
  = (Err ExternalFailure, 5%nat,
     [Called GetCurrentActivity;
      Called (CreateScenario (messages kyoto_state));
      Called (Makedirs "generated_images");
      Called Uuid4;
      Called (GenerateImage "a sunset over Kyoto" "generated_images/image_0001.png")]).
Proof.
  exact (image_node_fails_before_chain
           (scripted_but (@is_image_generation) kyoto_script)
           0%nat 1%nat 2%nat 3%nat 4%nat 5%nat kyoto_state []
           "visiting a temple" "0001" {| image_prompt := "a sunset over Kyoto" |}
           eq_refl eq_refl eq_refl eq_refl eq_refl).
Defined.

(** X7: the summarization node returns removal markers only together with
    a new summary: in any world, either the model answered and the update
    holds the model's text under [summary] beside the removals, or the
    model raised and the node failed with no update at all. *)
Theorem summarize_node_prunes_only_with_summary
        (K : Z) {W : Type} (h : handler W) (w : W) (st : AICompanionState) :
  let invocation :=
    ModelInvoke (messages st ++ [HumanMessage (summary_message st) None])%list in
  (exists resp w',
      h _ invocation w = (Some resp, w')
      /\ run h (summarize_conversation_node K st) w
         = (Ok (mkUpdate (Some (MessageList (delete_messages K st)))
                         (Some (response_content resp))
                         None None None None None None),
            w', [Called invocation]))
  \/ (exists w',
        h _ invocation w = (None, w')
        /\ run h (summarize_conversation_node K st) w
           = (Err ExternalFailure, w', [Called invocation])).
Proof.
  intros invocation.
  destruct (h _ invocation w) as [[resp|] w'] eqn:Hc.
  - left. exists resp, w'. split; [reflexivity|].
    now apply summarize_conversation_node_run.
  - right. exists w'. split; [reflexivity|].
    unfold summarize_conversation_node. fold invocation.
    now rewrite (run_bind_call_fails _ _ _ _ _ Hc).
Qed.

(** *** The image file *)

Lemma length_append (a b : string) :
  String.length (a ++ b) = (String.length a + String.length b)%nat.
Proof.
  induction a as [|c a IH]; cbn; [reflexivity|]. now rewrite IH.
Qed.

Lemma append_cancel_l (p a b : string) : p ++ a = p ++ b -> a = b.
Proof.
  induction p as [|c p IH]; cbn; intros H; [assumption|].
  injection H as H. now apply IH.
Qed.

Lemma append_cancel_r (t a b : string) : a ++ t = b ++ t -> a = b.
Proof.
  revert b. induction a as [|c a IH]; intros [|d b] H; cbn in H.
  - reflexivity.
  - apply (f_equal String.length) in H. cbn in H. rewrite length_append in H. lia.
  - apply (f_equal String.length) in H. cbn in H. rewrite length_append in H. lia.
  - injection H as -> H. f_equal. now apply IH.
Qed.

(** X8: once the collaborators have answered, the [image_path] of the
    update is built from the uuid that [uuid4] answered in this run,
    [generated_images/image_<uuid>.png]; it is the very path given to the
    image generation, which comes right after the directory was created
    and the uuid drawn; and two runs whose uuids differ return different
    paths. *)
Theorem image_node_path_is_generated_file
        {W : Type} (h : handler W) (w w1 w2 w3 w4 w5 w6 : W)
        (st : AICompanionState) (config : RunnableConfig)
        (activity uuid response : string) (scenario : ScenarioPrompt) (image : bytes)
        {V : Type} (h' : handler V) (v v1 v2 v3 v4 v5 v6 : V)
        (st' : AICompanionState) (config' : RunnableConfig)
        (activity' uuid' response' : string) (scenario' : ScenarioPrompt)
        (image' : bytes) :
  h _ GetCurrentActivity w = (Some activity, w1) ->
  h _ (CreateScenario (Py.slice_from (messages st) (-5))) w1 = (Some scenario, w2) ->
  h _ (Makedirs "generated_images") w2 = (Some tt, w3) ->
  h _ Uuid4 w3 = (Some uuid, w4) ->
  h _ (GenerateImage (image_prompt scenario)
         ("generated_images/image_" ++ uuid ++ ".png")) w4 = (Some image, w5) ->
  h _ (ChainInvoke (Py.get (summary st) "")
         (messages st ++
          [HumanMessage ("<image attached by Ava generated from prompt: "
                         ++ image_prompt scenario ++ ">") None])%list
         activity (Py.get (memory_context st) "") config) w5 = (Some response, w6) ->
  h' _ GetCurrentActivity v = (Some activity', v1) ->
  h' _ (CreateScenario (Py.slice_from (messages st') (-5))) v1 = (Some scenario', v2) ->
  h' _ (Makedirs "generated_images") v2 = (Some tt, v3) ->
  h' _ Uuid4 v3 = (Some uuid', v4) ->
  h' _ (GenerateImage (image_prompt scenario')
          ("generated_images/image_" ++ uuid' ++ ".png")) v4 = (Some image', v5) ->
  h' _ (ChainInvoke (Py.get (summary st') "")
          (messages st' ++
           [HumanMessage ("<image attached by Ava generated from prompt: "
                          ++ image_prompt scenario' ++ ">") None])%list
          activity' (Py.get (memory_context st') "") config') v5 = (Some response', v6) ->
  exists out out' tr tr' before after,
    run h (image_node st config) w = (Ok out, w6, tr)
    /\ run h' (image_node st' config') v = (Ok out', v6, tr')
    /\ u_image_path out = Some ("generated_images/image_" ++ uuid ++ ".png")
    /\ u_image_path out' = Some ("generated_images/image_" ++ uuid' ++ ".png")
    /\ tr = (before ++ Called (Makedirs "generated_images") :: Called Uuid4
             :: Called (GenerateImage (image_prompt scenario)
                          ("generated_images/image_" ++ uuid ++ ".png"))
             :: after)%list
    /\ (uuid <> uuid' -> u_image_path out <> u_image_path out').
Proof.
  intros H1 H2 H3 H4 H5 H6 G1 G2 G3 G4 G5 G6.
  pose proof (image_node_run h w w1 w2 w3 w4 w5 w6 st config activity uuid
                response scenario image H1 H2 H3 H4 H5 H6) as Hrun.
  pose proof (image_node_run h' v v1 v2 v3 v4 v5 v6 st' config' activity' uuid'
                response' scenario' image' G1 G2 G3 G4 G5 G6) as Hrun'.
  cbv zeta in Hrun, Hrun'.
  eexists. eexists. eexists. eexists.
  exists [Called GetCurrentActivity;
          Called (CreateScenario (Py.slice_from (messages st) (-5)))].
  eexists.
  split; [exact Hrun|]. split; [exact Hrun'|].
  split; [reflexivity|]. split; [reflexivity|]. split; [reflexivity|].
  cbn [u_image_path]. intros Hne Heq. apply Hne.
  apply (f_equal (fun o => Py.get o "")) in Heq. cbn [Py.get] in Heq.
  apply append_cancel_l in Heq. now apply append_cancel_r in Heq.
Qed.

Lemma image_node_path_is_generated_file_witness :
  exists out out' tr tr',
    run (scripted kyoto_script) (image_node kyoto_state []) 0%nat = (Ok out, 6%nat, tr)
    /\ run (scripted (mkScript "image" "visiting a temple" "Here is the view!"
                               "a sunset over Kyoto" "0002" [] "" [] ""))
           (image_node kyoto_state []) 0%nat = (Ok out', 6%nat, tr')
    /\ u_image_path out = Some "generated_images/image_0001.png"
    /\ u_image_path out' = Some "generated_images/image_0002.png"
    /\ u_image_path out <> u_image_path out'.
Proof.
  destruct (image_node_path_is_generated_file
              (scripted kyoto_script) 0%nat 1%nat 2%nat 3%nat 4%nat 5%nat 6%nat
              kyoto_state [] "visiting a temple" "0001" "Here is the view!"
              {| image_prompt := "a sunset over Kyoto" |} []
              (scripted (mkScript "image" "visiting a temple" "Here is the view!"
                                  "a sunset over Kyoto" "0002" [] "" [] ""))
              0%nat 1%nat 2%nat 3%nat 4%nat 5%nat 6%nat
              kyoto_state [] "visiting a temple" "0002" "Here is the view!"
              {| image_prompt := "a sunset over Kyoto" |} []
              eq_refl eq_refl eq_refl eq_refl eq_refl eq_refl
              eq_refl eq_refl eq_refl eq_refl eq_refl eq_refl)
    as [out [out' [tr [tr' [before [after
         [Hrun [Hrun' [Hpath [Hpath' [_ Hdiffer]]]]]]]]]]].
  exists out, out', tr, tr'.
  split; [exact Hrun|]. split; [exact Hrun'|]. split; [exact Hpath|].
  split; [exact Hpath'|]. apply Hdiffer. discriminate.
Defined.

(** *** How much the summarization prunes *)

Lemma slice_to_length {A : Type} (l : list A) (i : Z) :
  Z.of_nat (List.length (Py.slice_to l i)) = Py.bound (Z.of_nat (List.length l)) i.
Proof.
  unfold Py.slice_to. rewrite length_firstn.
  pose proof (bound_range (Z.of_nat (List.length l)) i ltac:(lia)). lia.
Qed.

Lemma slice_to_take {A : Type} (l : list A) (n : Z) :
  n <= 0 ->
  Py.slice_to l (- n) = firstn (Z.to_nat (- n)) l.
Proof.
  intros Hn. unfold Py.slice_to.
  assert (Hcases : Z.to_nat (Py.bound (Z.of_nat (List.length l)) (- n)) = Z.to_nat (- n)
                   \/ ((List.length l <= Z.to_nat (- n))%nat
                       /\ Z.to_nat (Py.bound (Z.of_nat (List.length l)) (- n))
                          = List.length l)).
  { bound_cases; lia. }
  destruct Hcases as [->|[Hshort ->]]; [reflexivity|].
  rewrite firstn_all. symmetry. now apply firstn_all2.
Qed.

Lemma delete_messages_length (K : Z) (st : AICompanionState) :
  Z.of_nat (List.length (delete_messages K st))
  = Py.bound (Z.of_nat (List.length (messages st))) (- K).
Proof.
  unfold delete_messages. rewrite length_map. apply slice_to_length.
Qed.

Lemma length_zero_nil {A : Type} (l : list A) : Z.of_nat (List.length l) = 0 -> l = [].
Proof. destruct l; cbn [List.length]; [reflexivity|lia]. Qed.

(** The history after the update of a summarization, when the identities
    of the history are distinct. *)
Lemma history_after_summarization
      (K : Z) (raw : string -> message) (st : AICompanionState) (text : string) :
  NoDup (map id (messages st)) ->
  messages (apply_update raw st
              (mkUpdate (Some (MessageList (delete_messages K st))) (Some text)
                        None None None None None None))
  = Py.slice_from (messages st) (- K).
Proof.
  intros Hnd. cbn [apply_update u_messages messages as_list]. unfold delete_messages.
  pose proof (slice_to_from (messages st) (- K)) as Hsplit.
  rewrite Hsplit at 1. apply remove_prefix_by_identity. now rewrite <- Hsplit.
Qed.

(** X9: with a positive [TOTAL_MESSAGES_AFTER_SUMMARY], the summarization
    node marks [len - K] messages for removal when the history is longer
    than [K]; on a history of [K] messages or fewer it marks none. *)
Theorem summarize_node_prune_count (K : Z) (st : AICompanionState) :
  0 < K ->
  Z.of_nat (List.length (delete_messages K st))
  = Z.max 0 (Z.of_nat (List.length (messages st)) - K)
  /\ (Z.of_nat (List.length (messages st)) <= K -> delete_messages K st = []).
Proof.
  intros HK.
  assert (Hcount : Z.of_nat (List.length (delete_messages K st))
                   = Z.max 0 (Z.of_nat (List.length (messages st)) - K)).
  { rewrite delete_messages_length. bound_cases; lia. }
  split; [exact Hcount|].
  intros Hshort. apply length_zero_nil. rewrite Hcount. lia.
Qed.

Lemma summarize_node_prune_count_witness :
  Z.of_nat (List.length (delete_messages 2 kyoto_state)) = 3
  /\ delete_messages 5 kyoto_state = [].
Proof.
  assert (H2 : 0 < 2) by reflexivity.
  assert (H5 : 0 < 5) by reflexivity.
  assert (Hshort : Z.of_nat (List.length (messages kyoto_state)) <= 5)
    by (cbn; discriminate).
  split.
  - exact (proj1 (summarize_node_prune_count 2 kyoto_state H2)).
  - exact (proj2 (summarize_node_prune_count 5 kyoto_state H5) Hshort).
Defined.

(** X10: a [TOTAL_MESSAGES_AFTER_SUMMARY] of zero does not prune the whole
    history: [messages[:-0]] is empty, so no message is marked and the
    history after the update is the history before; a negative value marks
    the first [-K] messages. *)
Theorem summarize_node_without_positive_keep (K : Z) (st : AICompanionState) :
  K <= 0 ->
  delete_messages K st
  = map (fun m => RemoveMessage (id m)) (firstn (Z.to_nat (- K)) (messages st))
  /\ (K = 0 ->
      delete_messages K st = []
      /\ forall raw text,
          messages (apply_update raw st
                      (mkUpdate (Some (MessageList (delete_messages K st)))
                                (Some text) None None None None None None))
          = messages st).
Proof.
  intros HK.
  assert (Hdel : delete_messages K st
                 = map (fun m => RemoveMessage (id m))
                       (firstn (Z.to_nat (- K)) (messages st))).
  { unfold delete_messages. now rewrite slice_to_take. }
  split; [exact Hdel|].
  intros ->. rewrite Hdel. cbn [Z.opp Z.to_nat firstn map].
  split; [reflexivity|]. intros raw text.
  cbn [apply_update u_messages messages as_list].
  unfold add_messages. cbn [filter]. rewrite app_nil_r.
  apply filter_all. intros x _. reflexivity.
Qed.

Lemma summarize_node_without_positive_keep_witness :
  delete_messages 0 kyoto_state = []
  /\ delete_messages (-2) kyoto_state
     = [RemoveMessage (Some "m1"); RemoveMessage (Some "m2")].
Proof.
  assert (H0 : 0 <= 0) by discriminate.
  assert (H2 : -2 <= 0) by discriminate.
  split.
  - exact (proj1 (proj2 (summarize_node_without_positive_keep 0 kyoto_state H0)
                        eq_refl)).
  - exact (proj1 (summarize_node_without_positive_keep (-2) kyoto_state H2)).
Defined.

(** X11: two summarizations in a row, with no message in between, a
    positive [TOTAL_MESSAGES_AFTER_SUMMARY] and distinct identities: on the
    state that results from the first one, the second marks no message for
    removal, and when the first summary is not empty its instruction asks
    to extend that summary and quotes it. *)
Theorem summarize_node_twice
        (K : Z) {W : Type} (h : handler W) (w w' : W)
        (st : AICompanionState) (resp : ModelResponse) :
  0 < K ->
  NoDup (map id (messages st)) ->
  h _ (ModelInvoke (messages st ++ [HumanMessage (summary_message st) None])%list) w
    = (Some resp, w') ->
  exists out tr,
    run h (summarize_conversation_node K st) w = (Ok out, w', tr)
    /\ forall raw,
        delete_messages K (apply_update raw st out) = []
        /\ (response_content resp <> "" ->
            summary_message (apply_update raw st out)
            = "This is summary of the conversation to date between Ava and the user: "
              ++ response_content resp ++ Py.newline ++ Py.newline
              ++ "Extend the summary by taking into account the new messages above:").
Proof.
  intros HK Hnd Hc. eexists. eexists.
  split; [exact (summarize_conversation_node_run K h w w' st resp Hc)|].
  intros raw. split.
  - apply length_zero_nil. rewrite delete_messages_length.
    rewrite history_after_summarization by assumption.
    rewrite slice_from_length. bound_cases; lia.
  - intros Hne. unfold summary_message. cbn [apply_update summary u_summary replace Py.get].
    destruct (response_content resp); [congruence|]. reflexivity.
Qed.

Lemma summarize_node_twice_witness :
  exists out tr,
    run (scripted kyoto_script) (summarize_conversation_node 2 kyoto_state) 0%nat
    = (Ok out, 1%nat, tr)
    /\ delete_messages 2 (apply_update as_human kyoto_state out) = []
    /\ summary_message (apply_update as_human kyoto_state out)
       = "This is summary of the conversation to date between Ava and the user: "
         ++ "Alex likes jazz and asked for a picture." ++ Py.newline ++ Py.newline
         ++ "Extend the summary by taking into account the new messages above:".
Proof.
  assert (Hpos : 0 < 2) by reflexivity.
  assert (Hids : NoDup (map id (messages kyoto_state))).
  { cbn. repeat constructor; cbn; intros H;
      repeat (destruct H as [H|H]; [discriminate H|]); exact H. }
  destruct (summarize_node_twice 2 (scripted kyoto_script) 0%nat 1%nat kyoto_state
              {| response_content := "Alex likes jazz and asked for a picture." |}
              Hpos Hids eq_refl) as [out [tr [Hrun Hnext]]].
  exists out, tr. split; [exact Hrun|].
  destruct (Hnext as_human) as [Hnone Hextend].
  split; [exact Hnone|]. apply Hextend. discriminate.
Defined.

(** *** Absent keys and turns in a row *)

(** X12: a key that is absent from the state is read as the empty string:
    the three response generators and the summarization node run alike on
    a state without [summary] and [memory_context] and on the state that
    has both set to the empty string, and the context injection node runs
    alike without [current_activity] and with an empty one. *)
Theorem absent_keys_read_as_empty
        (K : Z) {W : Type} (h : handler W) (w : W) (config : RunnableConfig)
        (msgs : list message) (summ wf activity mem img : option string)
        (apply : option bool) (aud : option bytes) :
  let absent := mkState msgs None wf activity apply None img aud in
  let empty := mkState msgs (Some "") wf activity apply (Some "") img aud in
  run h (conversation_node absent config) w = run h (conversation_node empty config) w
  /\ run h (image_node absent config) w = run h (image_node empty config) w
  /\ run h (audio_node absent config) w = run h (audio_node empty config) w
  /\ run h (summarize_conversation_node K absent) w
     = run h (summarize_conversation_node K empty) w
  /\ run h (context_injection_node (mkState msgs summ wf None apply mem img aud)) w
     = run h (context_injection_node (mkState msgs summ wf (Some "") apply mem img aud)) w.
Proof.
  intros absent empty. repeat split; reflexivity.
Qed.

(** X13: the activity is acknowledged once.  When the state of the next
    turn carries the [current_activity] that the context injection node has
    just returned, the node sets [apply_activity] on that turn to true
    exactly when the schedule has moved to a different activity; on a turn
    with the same activity it is false, whatever the state was before. *)
Theorem context_injection_node_applies_once
        {W : Type} (h : handler W) (w w1 v v1 : W)
        (st : AICompanionState) (first second : string) :
  h _ GetCurrentActivity w = (Some first, w1) ->
  h _ GetCurrentActivity v = (Some second, v1) ->
  exists out,
    run h (context_injection_node st) w = (Ok out, w1, [Called GetCurrentActivity])
    /\ forall next,
        current_activity next = u_current_activity out ->
        exists apply : bool,
          run h (context_injection_node next) v
          = (Ok (mkUpdate None None None (Some second) (Some apply) None None None),
             v1, [Called GetCurrentActivity])
          /\ (apply = true <-> second <> first)
          /\ (second = first -> apply = false).
Proof.
  intros H1 H2. eexists. split.
  - unfold context_injection_node. step H1. reflexivity.
  - intros next Hnext. cbn [u_current_activity] in Hnext.
    unfold context_injection_node. step H2. cbn [run]. rewrite Hnext. cbn [Py.get].
    eexists. split; [reflexivity|]. unfold Py.ne.
    destruct (String.eqb_spec second first); cbn; split; try split; congruence.
Qed.

Lemma context_injection_node_applies_once_witness :
  exists out,
    run (scripted kyoto_script) (context_injection_node kyoto_state) 0%nat
    = (Ok out, 1%nat, [Called GetCurrentActivity])
    /\ exists apply : bool,
        run (scripted kyoto_script)
            (context_injection_node (apply_update as_human kyoto_state out)) 1%nat
        = (Ok (mkUpdate None None None (Some "visiting a temple") (Some apply)
                        None None None), 2%nat, [Called GetCurrentActivity])
        /\ apply = false.
Proof.
  destruct (context_injection_node_applies_once
              (scripted kyoto_script) 0%nat 1%nat 1%nat 2%nat kyoto_state
              "visiting a temple" "visiting a temple" eq_refl eq_refl)
    as [out [Hrun Hnext]].
  exists out. split; [exact Hrun|].
  injection Hrun as Hout.
  destruct (Hnext (apply_update as_human kyoto_state out))
    as [apply [Hrun2 [_ Hsame]]].
  - rewrite <- Hout. reflexivity.
  - exists apply. split; [exact Hrun2 | exact (Hsame eq_refl)].
Defined.

(** X14: the conversation node asks the schedule, then invokes the chain
    once on the whole history.  When the chain answers, the update holds
    the answer as an agent message and no other key, so the history grows
    by that one message and no artifact is set; when the chain raises, the
    node fails with no update. *)
Theorem conversation_node_appends_one_message
        {W : Type} (h : handler W) (w w1 : W)
        (st : AICompanionState) (config : RunnableConfig) (activity : string) :
  let invocation :=
    ChainInvoke (Py.get (summary st) "") (messages st) activity
                (Py.get (memory_context st) "") config in
  h _ GetCurrentActivity w = (Some activity, w1) ->
  (forall response w2,
      h _ invocation w1 = (Some response, w2) ->
      run h (conversation_node st config) w
      = (Ok (mkUpdate (Some (OneMessage (AIMessage response None)))
                      None None None None None None None),
         w2, [Called GetCurrentActivity; Called invocation])
      /\ forall raw,
          apply_update raw st
            (mkUpdate (Some (OneMessage (AIMessage response None)))
                      None None None None None None None)
          = mkState (messages st ++ [AIMessage response None])%list
                    (summary st) (workflow st) (current_activity st)
                    (apply_activity st) (memory_context st)
                    (image_path st) (audio_buffer st))
  /\ (forall w2,
        h _ invocation w1 = (None, w2) ->
        run h (conversation_node st config) w
        = (Err ExternalFailure, w2, [Called GetCurrentActivity; Called invocation])).
Proof.
  intros invocation H1. split.
  - intros response w2 H2. split.
    + unfold conversation_node. step H1. fold invocation. step H2. reflexivity.
    + intros raw. unfold apply_update. cbn [u_messages as_list].
      rewrite add_one_message by reflexivity. reflexivity.
  - intros w2 H2. unfold conversation_node. step H1. fold invocation.
    rewrite (run_bind_call_fails _ _ _ _ _ H2). reflexivity.
Qed.

Lemma conversation_node_appends_one_message_witness :
  run (scripted kyoto_script) (conversation_node kyoto_state []) 0%nat
  = (Ok (mkUpdate (Some (OneMessage (AIMessage "Here is the view!" None)))
                  None None None None None None None),
     2%nat,
     [Called GetCurrentActivity;
      Called (ChainInvoke "Alex likes jazz." (messages kyoto_state)
                          "visiting a temple" "- Alex loves jazz" [])])
  /\ run (scripted_but (@is_chain) kyoto_script) (conversation_node kyoto_state [])
         0%nat
     = (Err ExternalFailure, 2%nat,
        [Called GetCurrentActivity;
         Called (ChainInvoke "Alex likes jazz." (messages kyoto_state)
                             "visiting a temple" "- Alex loves jazz" [])]).
Proof.
  split.
  - exact (proj1 (proj1 (conversation_node_appends_one_message
                           (scripted kyoto_script) 0%nat 1%nat kyoto_state []
                           "visiting a temple" eq_refl)
                        "Here is the view!" 2%nat eq_refl)).
  - exact (proj2 (conversation_node_appends_one_message
                    (scripted_but (@is_chain) kyoto_script) 0%nat 1%nat kyoto_state []
                    "visiting a temple" eq_refl) 2%nat eq_refl).
Defined.

(** *** Short histories *)

(** Case analysis on the answer to the current call, naming the answer and
    the world after it. *)
Ltac answer_as x v :=
  cbn [bind call run];
  match goal with
  | |- context [?h ?X ?c ?w] =>
      match type of h with
      | handler _ => destruct (h X c w) as [[x|] v]
      end
  end.

(** X15: whatever its length, the history reaches the response chain of
    the image node whole, followed by the synthetic message, while the
    scenario is drawn from a suffix of at most five messages of it. *)
Theorem image_node_scenario_window
        {W : Type} (h : handler W) (w w' : W)
        (st : AICompanionState) (config : RunnableConfig)
        (out : StateUpdate) (tr : list event) :
  run h (image_node st config) w = (Ok out, w', tr) ->
  exists older window text summary_text activity memory before between,
    messages st = (older ++ window)%list
    /\ Z.of_nat (List.length window) = Z.min 5 (Z.of_nat (List.length (messages st)))
    /\ tr = (before ++ Called (CreateScenario window) :: between
             ++ [Called (ChainInvoke summary_text
                           (messages st ++ [HumanMessage text None])%list
                           activity memory config)])%list.
Proof.
  unfold image_node.
  answer_as activity w1; [|discriminate]. answer_as scenario w2; [|discriminate].
  answer_as made w3; [|discriminate]. answer_as uuid w4; [|discriminate].
  answer_as image w5; [|discriminate]. answer_as response w6; [|discriminate].
  cbn [run]. intros H. injection H as _ _ <-.
  exists (Py.slice_to (messages st) (-5)), (Py.slice_from (messages st) (-5)).
  eexists. eexists. eexists. eexists. exists [Called GetCurrentActivity].
  exists [Called (Makedirs "generated_images"); Called Uuid4;
          Called (GenerateImage (image_prompt scenario)
                    ("generated_images/image_" ++ uuid ++ ".png"))].
  split; [apply slice_to_from|]. split.
  - rewrite slice_from_length. change (-5) with (- (5)). bound_cases; lia.
  - reflexivity.
Qed.

Lemma image_node_scenario_window_witness :
  exists older window text summary_text activity memory before between,
    messages kyoto_state = (older ++ window)%list
    /\ Z.of_nat (List.length window) = 5
    /\ snd (run (scripted kyoto_script) (image_node kyoto_state []) 0%nat)
       = (before ++ Called (CreateScenario window) :: between
          ++ [Called (ChainInvoke summary_text
                        (messages kyoto_state ++ [HumanMessage text None])%list
                        activity memory [])])%list.
Proof.
  destruct (image_node_scenario_window
              (scripted kyoto_script) 0%nat 6%nat kyoto_state []
              _ _ eq_refl)
    as [older [window [text [summary_text [activity [memory [before [between
         [Hsplit [Hlen Htr]]]]]]]]]].
  exists older, window, text, summary_text, activity, memory, before, between.
  split; [exact Hsplit|]. split; [exact Hlen | exact Htr].
Defined.

(** X16: on a history shorter than three messages the memory injection
    node builds its query from all of it: the content of the only message,
    with no separator, or the contents of the two messages with one space
    between them. *)
Theorem memory_injection_node_short_history
        {W : Type} (h : handler W) (w : W) (st : AICompanionState) :
  (forall only,
      messages st = [only] ->
      exists rest,
        snd (run h (memory_injection_node st) w)
        = Called (GetRelevantMemories (content only)) :: rest)
  /\ (forall first second,
        messages st = [first; second] ->
        exists rest,
          snd (run h (memory_injection_node st) w)
          = Called (GetRelevantMemories (content first ++ " " ++ content second))
            :: rest).
Proof.
  destruct (memory_injection_node_trace_head h w st) as [rest Hrest].
  split.
  - intros only Hmsgs. exists rest. rewrite Hrest, Hmsgs. reflexivity.
  - intros first second Hmsgs. exists rest. rewrite Hrest, Hmsgs. reflexivity.
Qed.

Lemma memory_injection_node_short_history_witness :
  exists rest,
    snd (run (scripted kyoto_script)
             (memory_injection_node
                (mkState [user "Hi, I'm Alex and I love jazz." "m1"]
                         None None None None None None None)) 0%nat)
    = Called (GetRelevantMemories "Hi, I'm Alex and I love jazz.") :: rest.
Proof.
  exact (proj1 (memory_injection_node_short_history
                  (scripted kyoto_script) 0%nat
                  (mkState [user "Hi, I'm Alex and I love jazz." "m1"]
                           None None None None None None None))
               (user "Hi, I'm Alex and I love jazz." "m1") eq_refl).
Defined.
